(** * backend/app.py: a Flask application with one route, served on AWS Lambda

    The module creates a Flask application, registers the view [hello] for
    [GET /hello] and exposes [lambda_handler], which hands the application
    and the Lambda event to the adapter [aws_wsgi.response].

    The program is embedded together with the parts of its libraries that
    decide its behaviour:
    - [json]: Python values that [jsonify] accepts, and [json.dumps] with
      the options Flask's JSON provider passes;
    - [werkzeug]: requests, responses, the default error pages, matching of
      static URL rules;
    - [flask]: [jsonify], the application object, [add_url_rule], the
      [get] decorator, request dispatch and the WSGI entry point;
    - [aws_wsgi]: the adapter between Lambda events and WSGI;
    - [App]: the module [backend/app.py] itself.

    Python code that raises and mutates is written in the monad [M]: a
    computation takes the application object and returns either an
    exception or a value, together with the application object it leaves. *)

From Stdlib Require Import String Ascii List Bool Arith Lia.
From stdpp Require Import base option gmap strings pretty.
Import ListNotations.

Local Open Scope string_scope.
Local Open Scope nat_scope.

Set Warnings "-register-all".

(** ** Characters that cannot be written inside a string literal *)

Definition dquote : ascii := "034"%char.
Definition backslash : ascii := "092"%char.
Definition newline : ascii := "010"%char.

Definition str1 (c : ascii) : string := String c EmptyString.

(** ** Python's [json] module *)

Module json.

(** The Python values the serializer is applied to. A [dict] is an
    association list in insertion order with [str] keys. Numbers do not
    occur in the program and are left out. Characters are code points
    below 256. *)
Inductive value : Type :=
  | Null : value
  | Bool (b : bool) : value
  | Str (s : string) : value
  | Arr (items : list value) : value
  | Dict (items : list (string * value)) : value.

(** [dict.__setitem__]: an existing key keeps its position. *)
Fixpoint dict_set (k : string) (v : value) (d : list (string * value))
  : list (string * value) :=
  match d with
  | [] => [(k, v)]
  | (k', v') :: d' =>
      if String.eqb k k' then (k, v) :: d' else (k', v') :: dict_set k v d'
  end.

(** *** Encoding of strings ([py_encode_basestring_ascii]) *)

Definition hex_digit (n : nat) : ascii :=
  if n <? 10 then ascii_of_nat (48 + n) else ascii_of_nat (87 + n).

(** [ESCAPE_ASCII] matches the backslash, the double quote and every
    character outside [' ' .. '~']; the replacement is the short escape
    when there is one and [\uXXXX] otherwise. *)
Definition escape_char (c : ascii) : string :=
  let n := nat_of_ascii c in
  if Ascii.eqb c dquote then String backslash (str1 dquote)
  else if Ascii.eqb c backslash then String backslash (str1 backslash)
  else if n =? 8 then String backslash "b"
  else if n =? 12 then String backslash "f"
  else if n =? 10 then String backslash "n"
  else if n =? 13 then String backslash "r"
  else if n =? 9 then String backslash "t"
  else if (n <? 32) || (126 <? n) then
    String backslash
      (String "u" (String "0" (String "0"
         (String (hex_digit (n / 16)) (str1 (hex_digit (n mod 16)))))))
  else str1 c.

Fixpoint escape (s : string) : string :=
  match s with
  | EmptyString => EmptyString
  | String c s' => escape_char c ++ escape s'
  end.

Definition encode_str (s : string) : string :=
  str1 dquote ++ escape s ++ str1 dquote.

(** *** [sort_keys=True]: items ordered by key *)

Fixpoint insert_item {A} (kv : string * A) (l : list (string * A))
  : list (string * A) :=
  match l with
  | [] => [kv]
  | kv' :: l' =>
      if String.leb (fst kv) (fst kv') then kv :: l
      else kv' :: insert_item kv l'
  end.

Definition sort_items {A} (l : list (string * A)) : list (string * A) :=
  foldr insert_item [] l.

(** *** [json.dumps(obj, ensure_ascii=True, sort_keys=True,
        separators=(",", ":"))] *)

Fixpoint dumps (v : value) : string :=
  match v with
  | Null => "null"
  | Bool true => "true"
  | Bool false => "false"
  | Str s => encode_str s
  | Arr items => "[" ++ String.concat "," (List.map dumps items) ++ "]"
  | Dict items =>
      "{" ++ String.concat ","
               (List.map snd
                  (sort_items
                     (List.map
                        (fun kv => (fst kv, encode_str (fst kv) ++ ":" ++ dumps (snd kv)))
                        items)))
      ++ "}"
  end.

(** *** [json.loads]

    A recursive-descent reader for the same values: white space, the
    literals, strings with their escapes, arrays and objects. It is the
    yardstick for what a response body denotes. A text with a number, or
    with an escape above [\u00ff], is outside the values above and is not
    read: [None] does not say that a text is no JSON. *)

Definition is_ws (c : ascii) : bool :=
  let n := nat_of_ascii c in
  (n =? 32) || (n =? 9) || (n =? 10) || (n =? 13).

Fixpoint skip_ws (s : string) : string :=
  match s with
  | String c s' => if is_ws c then skip_ws s' else s
  | EmptyString => s
  end.

Definition hex_value (c : ascii) : option nat :=
  let n := nat_of_ascii c in
  if (48 <=? n) && (n <=? 57) then Some (n - 48)
  else if (97 <=? n) && (n <=? 102) then Some (n - 87)
  else if (65 <=? n) && (n <=? 70) then Some (n - 55)
  else None.

(** The characters of a string after its opening quote, up to the closing
    one, and the rest of the input. *)
Fixpoint scan_string (s : string) : option (string * string) :=
  match s with
  | EmptyString => None
  | String c s' =>
      if Ascii.eqb c dquote then Some (EmptyString, s')
      else if Ascii.eqb c backslash then
        match s' with
        | EmptyString => None
        | String e s2 =>
            let plain (d : ascii) :=
              match scan_string s2 with
              | Some (r, rest) => Some (String d r, rest)
              | None => None
              end in
            let n := nat_of_ascii e in
            if Ascii.eqb e dquote then plain dquote
            else if Ascii.eqb e backslash then plain backslash
            else if n =? 47 then plain e
            else if n =? 98 then plain (ascii_of_nat 8)
            else if n =? 102 then plain (ascii_of_nat 12)
            else if n =? 110 then plain (ascii_of_nat 10)
            else if n =? 114 then plain (ascii_of_nat 13)
            else if n =? 116 then plain (ascii_of_nat 9)
            else if n =? 117 then
              match s2 with
              | String h1 (String h2 (String h3 (String h4 s6))) =>
                  match hex_value h1, hex_value h2, hex_value h3, hex_value h4 with
                  | Some 0, Some 0, Some a, Some b =>
                      match scan_string s6 with
                      | Some (r, rest) => Some (String (ascii_of_nat (16 * a + b)) r, rest)
                      | None => None
                      end
                  | _, _, _, _ => None
                  end
              | _ => None
              end
            else None
        end
      else if nat_of_ascii c <? 32 then None
      else
        match scan_string s' with
        | Some (r, rest) => Some (String c r, rest)
        | None => None
        end
  end.

Definition strip_prefix (p s : string) : option string :=
  if String.prefix p s
  then Some (String.substring (String.length p) (String.length s - String.length p) s)
  else None.

(** One value at the head of the input. [fuel] bounds the nesting and the
    number of items read; [loads] gives it the length of the input. *)
Fixpoint scan_value (fuel : nat) (s : string) : option (value * string) :=
  match fuel with
  | 0 => None
  | S fuel' =>
      match skip_ws s with
      | String c r =>
          let n := nat_of_ascii c in
          if Ascii.eqb c dquote then
            match scan_string r with
            | Some (str, rest) => Some (Str str, rest)
            | None => None
            end
          else if n =? 123 then
            match skip_ws r with
            | String c' r' =>
                if nat_of_ascii c' =? 125 then Some (Dict [], r')
                else scan_members fuel' [] r
            | EmptyString => None
            end
          else if n =? 91 then
            match skip_ws r with
            | String c' r' =>
                if nat_of_ascii c' =? 93 then Some (Arr [], r')
                else scan_elements fuel' [] r
            | EmptyString => None
            end
          else
            match strip_prefix "null" (String c r) with
            | Some rest => Some (Null, rest)
            | None =>
                match strip_prefix "true" (String c r) with
                | Some rest => Some (Bool true, rest)
                | None =>
                    match strip_prefix "false" (String c r) with
                    | Some rest => Some (Bool false, rest)
                    | None => None
                    end
                end
            end
      | EmptyString => None
      end
  end

with scan_members (fuel : nat) (acc : list (string * value)) (s : string)
  : option (value * string) :=
  match fuel with
  | 0 => None
  | S fuel' =>
      match skip_ws s with
      | String q r =>
          if Ascii.eqb q dquote then
            match scan_string r with
            | Some (k, rest) =>
                match skip_ws rest with
                | String colon rest' =>
                    if nat_of_ascii colon =? 58 then
                      match scan_value fuel' rest' with
                      | Some (v, rest2) =>
                          let acc' := dict_set k v acc in
                          match skip_ws rest2 with
                          | String d rest3 =>
                              if nat_of_ascii d =? 44 then scan_members fuel' acc' rest3
                              else if nat_of_ascii d =? 125 then Some (Dict acc', rest3)
                              else None
                          | EmptyString => None
                          end
                      | None => None
                      end
                    else None
                | EmptyString => None
                end
            | None => None
            end
          else None
      | EmptyString => None
      end
  end

with scan_elements (fuel : nat) (acc : list value) (s : string)
  : option (value * string) :=
  match fuel with
  | 0 => None
  | S fuel' =>
      match scan_value fuel' s with
      | Some (v, rest) =>
          match skip_ws rest with
          | String d rest' =>
              if nat_of_ascii d =? 44 then scan_elements fuel' (acc ++ [v])%list rest'
              else if nat_of_ascii d =? 93 then Some (Arr (acc ++ [v])%list, rest')
              else None
          | EmptyString => None
          end
      | None => None
      end
  end.

Definition loads (s : string) : option value :=
  match scan_value (S (String.length s)) s with
  | Some (v, rest) =>
      match skip_ws rest with
      | EmptyString => Some v
      | String _ _ => None
      end
  | None => None
  end.

End json.

(** ** Exceptions and the monad of Python computations *)

(** The HTTP errors werkzeug raises while it routes and dispatches. *)
Inductive http_error : Type :=
  | NotFound
  | MethodNotAllowed (valid_methods : list string)
  | InternalServerError.

Inductive exn : Type :=
  | KeyError (key : string)
  | AssertionError (msg : string)
  | HTTPException (e : http_error)
  | Exception (msg : string).

(** A computation over a mutable object of type [S]: the outcome is an
    exception or a value, and the object as the computation leaves it. An
    exception keeps the mutations made before it was raised. *)
Definition M (S A : Type) : Type := S -> (exn + A) * S.

Definition ret {S A} (a : A) : M S A := fun s => (inr a, s).

Definition raise {S A} (e : exn) : M S A := fun s => (inl e, s).

Definition bind {S A B} (c : M S A) (k : A -> M S B) : M S B :=
  fun s =>
    match c s with
    | (inr a, s') => k a s'
    | (inl e, s') => (inl e, s')
    end.

(** [try: c except Exception as e: h e] *)
Definition try_except {S A} (c : M S A) (h : exn -> M S A) : M S A :=
  fun s =>
    match c s with
    | (inr a, s') => (inr a, s')
    | (inl e, s') => h e s'
    end.

Definition get_state {S} : M S S := fun s => (inr s, s).

Definition put_state {S} (s : S) : M S unit := fun _ => (inr tt, s).

Notation "'let!' x ':=' c 'in' k" := (bind c (fun x => k))
  (at level 10, x pattern, c at level 100, k at level 200).

(** ** werkzeug: requests, responses, error pages, URL rules *)

Module werkzeug.

(** The request as the application sees it: [method] is upper case and
    [path] starts with one slash ([Request.method], [Request.path]). *)
Record Request : Type := {
  method : string;
  path : string;
  query_string : string;
  request_headers : list (string * string);
  request_data : string
}.

Record Response : Type := {
  status_code : nat;
  headers : list (string * string);
  data : string
}.

Definition to_upper (c : ascii) : ascii :=
  let n := nat_of_ascii c in
  if (97 <=? n) && (n <=? 122) then ascii_of_nat (n - 32) else c.

Fixpoint upper (s : string) : string :=
  match s with
  | EmptyString => EmptyString
  | String c s' => String (to_upper c) (upper s')
  end.

(** Header names compare without case. *)
Definition same_header (a b : string) : bool := String.eqb (upper a) (upper b).

Fixpoint headers_get (name : string) (h : list (string * string)) : option string :=
  match h with
  | [] => None
  | (k, v) :: h' => if same_header name k then Some v else headers_get name h'
  end.

(** [Headers.__setitem__]: replaces the header of that name or appends. *)
Fixpoint headers_set (name value : string) (h : list (string * string))
  : list (string * string) :=
  match h with
  | [] => [(name, value)]
  | (k, v) :: h' =>
      if same_header name k then (name, value) :: h'
      else (k, v) :: headers_set name value h'
  end.

Definition ends_with (suffix s : string) : bool :=
  let n := String.length s in
  let m := String.length suffix in
  (m <=? n) && String.eqb (String.substring (n - m) m s) suffix.

Definition charset_mimetypes : list string :=
  [ "application/ecmascript"; "application/javascript"; "application/sql";
    "application/xml"; "application/xml-dtd";
    "application/xml-external-parsed-entity" ].

(** [get_content_type(mimetype, "utf-8")] *)
Definition get_content_type (mimetype : string) : string :=
  if String.prefix "text/" mimetype
     || existsb (String.eqb mimetype) charset_mimetypes
     || ends_with "+xml" mimetype
  then mimetype +:+ "; charset=utf-8"
  else mimetype.

(** [Response(response, status, headers, mimetype)], with the default
    mimetype of the class as first argument: the content type is set from
    [mimetype], or from the default when the headers carry none; a body
    given as a string sets [Content-Length]. *)
Definition Response_init (default_mimetype : string)
    (response : option string) (status : nat)
    (hdrs : list (string * string)) (mimetype : option string) : Response :=
  let mt :=
    match mimetype with
    | Some m => Some m
    | None =>
        match headers_get "Content-Type" hdrs with
        | Some _ => None
        | None => Some default_mimetype
        end
    end in
  let h1 :=
    match mt with
    | Some m => headers_set "Content-Type" (get_content_type m) hdrs
    | None => hdrs
    end in
  match response with
  | Some body =>
      {| status_code := status;
         headers := headers_set "Content-Length" (pretty (String.length body)) h1;
         data := body |}
  | None => {| status_code := status; headers := h1; data := EmptyString |}
  end.

(** [Response.mimetype]: the content type up to its parameters. *)
Fixpoint before_semicolon (s : string) : string :=
  match s with
  | EmptyString => EmptyString
  | String c s' => if Ascii.eqb c ";" then EmptyString else String c (before_semicolon s')
  end.

Definition mimetype (r : Response) : option string :=
  before_semicolon <$> headers_get "Content-Type" (headers r).

(** *** The default error pages ([HTTPException.get_response]) *)

Definition code (e : http_error) : nat :=
  match e with
  | NotFound => 404
  | MethodNotAllowed _ => 405
  | InternalServerError => 500
  end.

Definition name (e : http_error) : string :=
  match e with
  | NotFound => "Not Found"
  | MethodNotAllowed _ => "Method Not Allowed"
  | InternalServerError => "Internal Server Error"
  end.

Definition description (e : http_error) : string :=
  match e with
  | NotFound =>
      "The requested URL was not found on the server. If you entered the URL manually please check your spelling and try again."
  | MethodNotAllowed _ => "The method is not allowed for the requested URL."
  | InternalServerError =>
      "The server encountered an internal error and was unable to complete your request. Either the server is overloaded or there is an error in the application."
  end.

Definition get_body (e : http_error) : string :=
  let nl := str1 newline in
  "<!doctype html>" +:+ nl +:+
  "<html lang=en>" +:+ nl +:+
  "<title>" +:+ pretty (code e) +:+ " " +:+ name e +:+ "</title>" +:+ nl +:+
  "<h1>" +:+ name e +:+ "</h1>" +:+ nl +:+
  "<p>" +:+ description e +:+ "</p>" +:+ nl.

Definition get_headers (e : http_error) : list (string * string) :=
  let base := [("Content-Type", "text/html; charset=utf-8")] in
  match e with
  | MethodNotAllowed (m :: ms) => (base ++ [("Allow", String.concat ", " (m :: ms))])%list
  | _ => base
  end.

Definition get_response (e : http_error) : Response :=
  Response_init "text/plain" (Some (get_body e)) (code e) (get_headers e) None.

(** *** URL rules *)

Record Rule : Type := {
  rule : string;
  methods : gset string;
  endpoint : string;
  provide_automatic_options : bool
}.

(** [Rule(rule, methods=..., endpoint=...)]: the methods are upper-cased
    and [HEAD] is added when [GET] is present. *)
Definition Rule_init (r : string) (ms : list string) (ep : string) : Rule :=
  let ms : gset string := list_to_set (List.map upper ms) in
  {| rule := r;
     methods := if bool_decide ("GET" ∈ ms) then ms ∪ {["HEAD"]} else ms;
     endpoint := ep;
     provide_automatic_options := false |}.

(** [MapAdapter.match] for rules without converters, which is what the
    application registers: a rule matches a path equal to it (a trailing
    slash is not ignored). A rule whose path matches and whose methods do
    not contributes them to [have_match_for]; with no match the outcome is
    405 when that set is not empty and 404 otherwise. *)
Fixpoint match_rules (rules : list Rule) (have_match_for : gset string)
    (meth pth : string) : http_error + Rule :=
  match rules with
  | [] =>
      if bool_decide (have_match_for = ∅) then inl NotFound
      else inl (MethodNotAllowed (elements have_match_for))
  | r :: rs =>
      if String.eqb (rule r) pth then
        if bool_decide (meth ∈ methods r) then inr r
        else match_rules rs (have_match_for ∪ methods r) meth pth
      else match_rules rs have_match_for meth pth
  end.

Definition match_ (url_map : list Rule) (meth pth : string) : http_error + Rule :=
  match_rules url_map ∅ meth pth.

(** [MapAdapter.allowed_methods]: the methods of the rules that match the
    path. *)
Definition allowed_methods (url_map : list Rule) (pth : string) : list string :=
  match match_ url_map "--" pth with
  | inl (MethodNotAllowed ms) => ms
  | _ => []
  end.

(** [Response.__call__]: what the WSGI server is given. [Content-Length]
    is filled in when missing, and a [HEAD] request, like the statuses
    without content, gets the headers and no body. *)
Definition get_wsgi_response (req : Request) (r : Response) : Response :=
  let s := status_code r in
  let no_content := ((100 <=? s) && (s <? 200)) || (s =? 204) || (s =? 304) in
  let h :=
    match headers_get "Content-Length" (headers r) with
    | Some _ => headers r
    | None =>
        if no_content then headers r
        else headers_set "Content-Length" (pretty (String.length (data r))) (headers r)
    end in
  {| status_code := s;
     headers := h;
     data := if String.eqb (method req) "HEAD" || no_content then EmptyString else data r |}.

End werkzeug.

(** ** Flask *)

Module flask.
Import werkzeug.

(** [jsonify(obj)]: the JSON provider serializes the object in compact
    form (the application is not in debug mode), appends a newline and
    wraps the text in a response of status 200 and mimetype
    [application/json]. The text is computed at once; the response keeps no
    reference to [obj]. *)
Definition jsonify (obj : json.value) : Response :=
  Response_init "text/html"
    (Some (json.dumps obj +:+ str1 newline)) 200 [] (Some "application/json").

Section Application.

(** [F] is the type of the function objects registered as views,
    [name_of f] is [f.__name__]. *)
Context {F : Type} `{EqDecision F}.
Variable name_of : F -> string.

(** The application object: the URL map and the views by endpoint. The
    rule Flask installs for a static folder (the repository has none) and
    the framework's private bookkeeping (request contexts, routing caches)
    are not part of it. *)
Record Flask : Type := {
  import_name : string;
  url_map : list Rule;
  view_functions : gmap string F
}.

Definition Flask_init (import_name : string) : Flask :=
  {| import_name := import_name; url_map := []; view_functions := ∅ |}.

(** [app.add_url_rule(rule, endpoint, view_func, methods=methods)]:
    [OPTIONS] is added and answered automatically unless the caller lists
    it; the rule enters the URL map; registering a different function under
    a taken endpoint raises. *)
Definition add_url_rule (r : string) (ep : string) (view_func : F)
    (ms : list string) : M Flask unit :=
  let ms := List.map upper ms in
  let automatic := negb (existsb (String.eqb "OPTIONS") ms) in
  let ms := if automatic then (ms ++ ["OPTIONS"])%list else ms in
  let rule_obj :=
    let ro := Rule_init r ms ep in
    {| rule := rule ro; methods := methods ro; endpoint := endpoint ro;
       provide_automatic_options := automatic |} in
  let! app := get_state in
  let! _ := put_state {| import_name := import_name app;
                         url_map := (url_map app ++ [rule_obj])%list;
                         view_functions := view_functions app |} in
  match view_functions app !! ep with
  | Some old_func =>
      if decide (old_func = view_func) then ret tt
      else raise (AssertionError
                    ("View function mapping is overwriting an existing endpoint function: " +:+ ep))
  | None =>
      let! app := get_state in
      put_state {| import_name := import_name app;
                   url_map := url_map app;
                   view_functions := <[ep := view_func]> (view_functions app) |}
  end.

(** [@app.route(rule, methods=ms)]: registers the function under its own
    name and returns it. *)
Definition route (r : string) (ms : list string) (f : F) : M Flask F :=
  let! _ := add_url_rule r (name_of f) f ms in
  ret f.

(** [@app.get(rule)] is [@app.route(rule, methods=["GET"])]. *)
Definition get (r : string) (f : F) : M Flask F := route r ["GET"] f.

(** Calling a function object runs its body. *)
Variable call : F -> M Flask Response.

(** [make_default_options_response]: an empty response that lists the
    methods allowed for the path. *)
Definition make_default_options_response (req : Request) : M Flask Response :=
  let! app := get_state in
  let rv := Response_init "text/html" None 200 [] None in
  ret {| status_code := status_code rv;
         headers := headers_set "Allow"
                      (String.concat ", " (allowed_methods (url_map app) (path req)))
                      (headers rv);
         data := data rv |}.

(** [dispatch_request]: a routing error is raised; [OPTIONS] on a rule
    with automatic options is answered by the framework; otherwise the
    view registered for the endpoint is called. *)
Definition dispatch_request (req : Request) : M Flask Response :=
  let! app := get_state in
  match match_ (url_map app) (method req) (path req) with
  | inl e => raise (HTTPException e)
  | inr r =>
      if provide_automatic_options r && String.eqb (method req) "OPTIONS"
      then make_default_options_response req
      else
        match view_functions app !! endpoint r with
        | Some f => call f
        | None => raise (KeyError (endpoint r))
        end
  end.

(** [handle_user_exception]: no error handler is registered, so an HTTP
    exception becomes its own response and any other exception is raised
    again. *)
Definition handle_user_exception (e : exn) : M Flask Response :=
  match e with
  | HTTPException h => ret (get_response h)
  | _ => raise e
  end.

Definition full_dispatch_request (req : Request) : M Flask Response :=
  try_except (dispatch_request req) handle_user_exception.

(** [handle_exception]: an exception that reaches the WSGI entry point is
    answered with the 500 page. *)
Definition handle_exception (e : exn) : M Flask Response :=
  ret (get_response InternalServerError).

(** [app.wsgi_app], which is [app.__call__]: the WSGI server sees the
    response [get_wsgi_response] makes of the dispatch result. *)
Definition wsgi_app (req : Request) : M Flask Response :=
  let! response := try_except (full_dispatch_request req) handle_exception in
  ret (get_wsgi_response req response).

End Application.

Arguments Flask F : clear implicits.

End flask.

(** ** The adapter *)

Module aws_wsgi.
Import werkzeug.

(** The response envelope of the platform: status, headers, body. *)
Record Envelope : Type := {
  statusCode : nat;
  envelope_headers : list (string * string);
  body : string
}.

Section Adapter.

Context {S Event LambdaContext : Type}.

(** The translation of an event and its context into the HTTP request it
    stands for; it raises on an event it cannot read. *)
Variable environ : Event -> LambdaContext -> exn + Request.

(** Modelled from the spec: the package [aws_wsgi] is not part of the
    repository. By section 4.2 of the specification, [response] accepts
    the invocation event and context, constructs the equivalent HTTP
    request, dispatches it to the application, and converts the resulting
    HTTP response into the envelope; an exception raised during
    translation or dispatch propagates. *)
Definition response (app : Request -> M S Response)
    (event : Event) (context : LambdaContext) : M S Envelope :=
  let! req :=
    match environ event context with
    | inr req => ret req
    | inl e => raise e
    end in
  let! r := app req in
  ret {| statusCode := status_code r;
         envelope_headers := headers r;
         body := data r |}.

End Adapter.

(** A translation for events of the API Gateway proxy format, a dictionary
    of strings: [event["httpMethod"]] and [event["path"]] are required, the
    other keys are optional. *)
Definition proxy_environ (event : gmap string string) (context : unit)
  : exn + Request :=
  match event !! "httpMethod" with
  | None => inl (KeyError "httpMethod")
  | Some m =>
      match event !! "path" with
      | None => inl (KeyError "path")
      | Some p =>
          inr {| method := upper m;
                 path := p;
                 query_string := default EmptyString (event !! "queryString");
                 request_headers := [];
                 request_data := default EmptyString (event !! "body") |}
      end
  end.

End aws_wsgi.

(** ** The module backend/app.py *)

Module App.
Import werkzeug flask.

(** The functions the module defines and registers as views. *)
Inductive function : Type := def_hello.

#[global] Instance function_eq_dec : EqDecision function.
Proof. solve_decision. Defined.

Definition name_of (f : function) : string :=
  match f with def_hello => "hello" end.

(** The state of the module is its application object. *)
Definition Py (A : Type) : Type := M (Flask function) A.

(** [def hello(): return jsonify({"message": "Hello from Flask on Lambda!"})] *)
Definition hello : Py Response :=
  ret (jsonify (json.Dict [("message", json.Str "Hello from Flask on Lambda!")])).

Definition call (f : function) : Py Response :=
  match f with def_hello => hello end.

(** The module body: [app = Flask(__name__)] and the decorated
    definition of [hello]. [__name__] is the name the module is imported
    under. *)
Definition module_name : string := "app".

Definition module_body : Py unit :=
  let! _ := get name_of "/hello" def_hello in
  ret tt.

(** [app] as the import leaves it. *)
Definition app : Flask function := snd (module_body (Flask_init module_name)).

Section Entrypoint.

(** The adapter package is not part of the repository: [aws_wsgi.response]
    is a parameter. It is given the application as a WSGI callable, the
    event and the context, and answers with the platform's envelope. *)
Context {Event LambdaContext Envelope : Type}.
Variable aws_wsgi_response :
  (Request -> Py Response) -> Event -> LambdaContext -> Py Envelope.

(** [def lambda_handler(event, context):
         return aws_wsgi.response(app, event, context)] *)
Definition lambda_handler (event : Event) (context : LambdaContext) : Py Envelope :=
  let! rv := aws_wsgi_response (wsgi_app call) event context in
  ret rv.

End Entrypoint.

(** The application object after it has served the requests of [history],
    oldest first, in one process. *)
Fixpoint serve (history : list Request) (s : Flask function) : Flask function :=
  match history with
  | [] => s
  | req :: rest => serve rest (snd (wsgi_app call req s))
  end.

(** The rule the import leaves in the URL map of [app]. *)
Definition hello_rule : Rule :=
  {| rule := "/hello";
     methods := {[ "GET"; "OPTIONS"; "HEAD" ]};
     endpoint := "hello";
     provide_automatic_options := true |}.

(** The payload of the specification, and its text as [hello] sends it. *)
Definition greeting : json.value :=
  json.Dict [("message", json.Str "Hello from Flask on Lambda!")].

Definition greeting_body : string :=
  "{" +:+ str1 dquote +:+ "message" +:+ str1 dquote +:+ ":" +:+
  str1 dquote +:+ "Hello from Flask on Lambda!" +:+ str1 dquote +:+ "}" +:+
  str1 newline.

End App.

(** ** The requests the embedding stands for *)

(** A request as an HTTP server or API Gateway hands it over: the method
    in upper case, the path starting with exactly one slash and not below
    /static/, and no Upgrade header. Outside this range the real
    application does more than the embedding: werkzeug folds the case of
    the method and strips leading slashes of the path before it routes,
    it routes a WebSocket upgrade apart, and the rule that [Flask(__name__)]
    installs for static files answers the paths below /static/. *)
Definition plain_request (req : werkzeug.Request) : Prop :=
  werkzeug.upper (werkzeug.method req) = werkzeug.method req /\
  String.prefix "/" (werkzeug.path req) = true /\
  String.prefix "//" (werkzeug.path req) = false /\
  String.prefix "/static/" (werkzeug.path req) = false /\
  werkzeug.headers_get "Upgrade" (werkzeug.request_headers req) = None.

(** ** Sample inputs *)

Module Samples.
Import werkzeug.

Definition request (m p q : string) (h : list (string * string)) (d : string)
  : Request :=
  {| method := m; path := p; query_string := q;
     request_headers := h; request_data := d |}.

Definition get_hello : Request := request "GET" "/hello" EmptyString [] EmptyString.

Definition get_hello_loaded : Request :=
  request "GET" "/hello" "name=x&debug=1" [("Accept", "text/html"); ("X-Id", "7")]
    "payload".

Definition head_hello : Request := request "HEAD" "/hello" EmptyString [] EmptyString.

Definition post_hello : Request := request "POST" "/hello" EmptyString [] "x=1".

Definition get_root : Request := request "GET" "/" EmptyString [] EmptyString.

Definition event_get_hello : gmap string string :=
  {[ "httpMethod" := "GET"; "path" := "/hello" ]}.

Definition event_malformed : gmap string string := {[ "path" := "/hello" ]}.

End Samples.

(** * Properties *)

Import werkzeug flask App.

(** No step of the dispatch writes to the application object. *)
Lemma dispatch_request_state (req : Request) (s : Flask function) :
  snd (dispatch_request call req s) = s.
Proof.
  unfold dispatch_request, bind, get_state. simpl.
  destruct (match_ (url_map s) (method req) (path req)) as [e | r]; [reflexivity |].
  destruct (provide_automatic_options r && String.eqb (method req) "OPTIONS");
    [reflexivity |].
  destruct (view_functions s !! endpoint r) as [[] |]; reflexivity.
Qed.

Lemma wsgi_app_state (req : Request) (s : Flask function) :
  snd (wsgi_app call req s) = s.
Proof.
  pose proof (dispatch_request_state req s) as H.
  unfold wsgi_app, full_dispatch_request, bind, try_except.
  destruct (dispatch_request call req s) as [[e | r] s']; simpl in H; subst s'.
  - destruct e as [k | m | h | m]; reflexivity.
  - reflexivity.
Qed.

Lemma serve_state (history : list Request) (s : Flask function) :
  serve history s = s.
Proof.
  induction history as [| req rest IH]; simpl; [reflexivity |].
  rewrite wsgi_app_state. exact IH.
Qed.

(** The response to [GET /hello], whatever else the request carries. *)
Lemma get_hello_response (req : Request) :
  method req = "GET" -> path req = "/hello" ->
  wsgi_app call req app =
    (inr {| status_code := 200;
            headers := [("Content-Type", "application/json"); ("Content-Length", "42")];
            data := greeting_body |}, app).
Proof.
  destruct req as [m p q h d]; simpl; intros -> ->.
  vm_compute. reflexivity.
Qed.





(** C4: two identical GET requests to /hello get identical responses
    (status, headers and body), whether the process has served other
    requests before either of them or not. *)
Theorem get_hello_idempotent (before between : list Request) (req : Request) :
  method req = "GET" -> path req = "/hello" ->
  let s1 := serve before app in
  let first := wsgi_app call req s1 in
  let s2 := serve between (snd first) in
  let second := wsgi_app call req s2 in
  fst first = fst second /\ exists r, fst first = inr r.
Proof.
  intros Hm Hp. cbv zeta.
  rewrite !serve_state, wsgi_app_state, (get_hello_response req Hm Hp). simpl.
  split; [reflexivity | eexists; reflexivity].
Qed.

Lemma get_hello_idempotent_witness :
  method Samples.get_hello = "GET" /\ path Samples.get_hello = "/hello" /\
  let s1 := serve [Samples.get_root] app in
  let first := wsgi_app call Samples.get_hello s1 in
  let s2 := serve [Samples.post_hello; Samples.head_hello] (snd first) in
  let second := wsgi_app call Samples.get_hello s2 in
  fst first = fst second /\ exists r, fst first = inr r.
Proof.
  split; [reflexivity |]. split; [reflexivity |].
  apply (get_hello_idempotent [Samples.get_root]
           [Samples.post_hello; Samples.head_hello] Samples.get_hello);
    reflexivity.
Defined.



Lemma app_eq :
  app = {| import_name := "app";
           url_map := [hello_rule];
           view_functions := {[ "hello" := def_hello ]} |}.
Proof. vm_compute. reflexivity. Qed.

Lemma hello_rule_methods (m : string) :
  m ∈ methods hello_rule <-> m = "GET" \/ m = "OPTIONS" \/ m = "HEAD".
Proof.
  unfold hello_rule; simpl.
  rewrite !elem_of_union, !elem_of_singleton. tauto.
Qed.

(** Routing in [app]: the path must be /hello, and the method one of the
    rule's. *)
Lemma match_app (m p : string) :
  match_ (url_map app) m p =
    if String.eqb "/hello" p then
      if bool_decide (m = "GET" \/ m = "OPTIONS" \/ m = "HEAD") then inr hello_rule
      else inl (MethodNotAllowed ["OPTIONS"; "GET"; "HEAD"])
    else inl NotFound.
Proof.
  rewrite app_eq. unfold match_. simpl url_map. unfold match_rules.
  change (rule hello_rule) with "/hello".
  destruct (String.eqb "/hello" p); [| reflexivity].
  rewrite (bool_decide_ext _ _ (hello_rule_methods m)).
  destruct (bool_decide (m = "GET" \/ m = "OPTIONS" \/ m = "HEAD")); [reflexivity |].
  vm_compute. reflexivity.
Qed.

(** C8: running the handler leaves the application object as it found it,
    in every state, and so does the whole dispatch of any request; the
    response of the handler is built from the literal alone, the same in
    every state, and nothing of it is kept in the state. *)
Theorem hello_no_side_effects :
  (forall s : Flask function, snd (hello s) = s) /\
  (forall s s' : Flask function, fst (hello s) = fst (hello s')) /\
  (forall (req : Request) (s : Flask function), snd (wsgi_app call req s) = s) /\
  (forall history : list Request, serve history app = app).
Proof.
  split; [reflexivity |]. split; [reflexivity |].
  split; [exact wsgi_app_state | intros history; apply serve_state].
Qed.

(** C9: on every event and context, and in every state, lambda_handler
    has the outcome of aws_wsgi.response applied to the application, the
    event and the context: the same value or the same exception, and the
    same final state. *)
Theorem lambda_handler_is_adapter_response
    {Event LambdaContext Envelope : Type}
    (aws_wsgi_response :
       (Request -> Py Response) -> Event -> LambdaContext -> Py Envelope)
    (event : Event) (context : LambdaContext) (s : Flask function) :
  lambda_handler aws_wsgi_response event context s =
  aws_wsgi_response (wsgi_app call) event context s.
Proof.
  unfold lambda_handler, bind, ret.
  destruct (aws_wsgi_response (wsgi_app call) event context s) as [[e | v] s'];
    reflexivity.
Qed.

(** C7: when the adapter raises on an event and context, lambda_handler
    raises the same exception and leaves the state the adapter left. *)
Theorem lambda_handler_propagates
    {Event LambdaContext Envelope : Type}
    (aws_wsgi_response :
       (Request -> Py Response) -> Event -> LambdaContext -> Py Envelope)
    (event : Event) (context : LambdaContext) (s s' : Flask function) (e : exn) :
  aws_wsgi_response (wsgi_app call) event context s = (inl e, s') ->
  lambda_handler aws_wsgi_response event context s = (inl e, s').
Proof.
  intros H. unfold lambda_handler, bind. rewrite H. reflexivity.
Qed.

Lemma lambda_handler_propagates_witness :
  lambda_handler (aws_wsgi.response aws_wsgi.proxy_environ)
    Samples.event_malformed tt app = (inl (KeyError "httpMethod"), app).
Proof.
  apply (lambda_handler_propagates (aws_wsgi.response aws_wsgi.proxy_environ)
           Samples.event_malformed tt app app (KeyError "httpMethod")).
  reflexivity.
Defined.





(** The whole behaviour of the application: what is dispatched for each
    path and method, before the WSGI layer finishes the response. *)
Lemma wsgi_app_cases (req : Request) :
  wsgi_app call req app =
    (inr (get_wsgi_response req
            (if String.eqb "/hello" (path req) then
               if bool_decide (method req = "GET" \/ method req = "OPTIONS"
                               \/ method req = "HEAD") then
                 if String.eqb (method req) "OPTIONS" then
                   {| status_code := 200;
                      headers := [("Content-Type", "text/html; charset=utf-8");
                                  ("Allow", "OPTIONS, GET, HEAD")];
                      data := EmptyString |}
                 else
                   {| status_code := 200;
                      headers := [("Content-Type", "application/json");
                                  ("Content-Length", "42")];
                      data := greeting_body |}
               else get_response (MethodNotAllowed ["OPTIONS"; "GET"; "HEAD"])
             else get_response NotFound)), app).
Proof.
  unfold wsgi_app, full_dispatch_request, try_except, dispatch_request, bind,
    get_state.
  rewrite match_app.
  destruct (String.eqb_spec "/hello" (path req)) as [Hp | Hp]; [| reflexivity].
  destruct (bool_decide (method req = "GET" \/ method req = "OPTIONS"
                         \/ method req = "HEAD")); [| reflexivity].
  change (provide_automatic_options hello_rule) with true.
  change (endpoint hello_rule) with "hello".
  destruct (String.eqb (method req) "OPTIONS"); simpl.
  - unfold make_default_options_response, bind, get_state, ret.
    rewrite <- Hp. vm_compute. reflexivity.
  - replace (view_functions app !! "hello") with (Some def_hello)
      by (vm_compute; reflexivity).
    reflexivity.
Qed.




(** ** Further properties of the application *)

(** The six kinds of request and the response each one gets. The WSGI
    layer looks at the request only to see whether its method is HEAD. *)
Lemma response_table (req : Request) :
  exists r,
    wsgi_app call req app = (inr r, app) /\
    ((path req = "/hello" /\ method req = "GET" /\
        r = get_wsgi_response Samples.get_hello
              (jsonify greeting))
     \/ (path req = "/hello" /\ method req = "HEAD" /\
        r = get_wsgi_response Samples.head_hello (jsonify greeting))
     \/ (path req = "/hello" /\ method req = "OPTIONS" /\
        r = get_wsgi_response Samples.get_hello
              {| status_code := 200;
                 headers := [("Content-Type", "text/html; charset=utf-8");
                             ("Allow", "OPTIONS, GET, HEAD")];
                 data := EmptyString |})
     \/ (path req = "/hello" /\
        ~ (method req = "GET" \/ method req = "OPTIONS" \/ method req = "HEAD") /\
        r = get_wsgi_response Samples.get_hello
              (get_response (MethodNotAllowed ["OPTIONS"; "GET"; "HEAD"])))
     \/ (path req <> "/hello" /\ method req = "HEAD" /\
        r = get_wsgi_response Samples.head_hello (get_response NotFound))
     \/ (path req <> "/hello" /\ method req <> "HEAD" /\
        r = get_wsgi_response Samples.get_hello (get_response NotFound))).
Proof.
  rewrite wsgi_app_cases. eexists. split; [reflexivity |].
  destruct (String.eqb_spec "/hello" (path req)) as [Hp | Hp].
  - symmetry in Hp. case_bool_decide as Hd.
    + destruct Hd as [Hm | [Hm | Hm]].
      * left. rewrite Hm. unfold get_wsgi_response. rewrite Hm. auto.
      * do 2 right; left. rewrite Hm. unfold get_wsgi_response. rewrite Hm. auto.
      * right; left. rewrite Hm. unfold get_wsgi_response. rewrite Hm. auto.
    + do 3 right; left.
      assert (String.eqb (method req) "HEAD" = false) as Hh
        by (apply String.eqb_neq; intros E; apply Hd; auto).
      unfold get_wsgi_response. rewrite Hh. auto.
  - assert (path req <> "/hello") as Hp' by congruence.
    unfold get_wsgi_response.
    destruct (String.eqb_spec (method req) "HEAD") as [Hm | Hm].
    + do 4 right; left. auto.
    + do 5 right. auto.
Qed.

Ltac by_table req r :=
  rewrite ?serve_state;
  let Hr := fresh "Hr" in
  let Hc := fresh "Hc" in
  destruct (response_table req) as (r & Hr & Hc);
  exists r; split; [exact Hr |];
  destruct Hc as
    [(Hp & Hm & ->) | [(Hp & Hm & ->) | [(Hp & Hm & ->)
     | [(Hp & Hm & ->) | [(Hp & Hm & ->) | (Hp & Hm & ->)]]]]].

(** X1: a request to /hello in the range of [plain_request] is answered
    without an exception leaving the application, and its status is
    decided by the method: 200 exactly for GET, HEAD and OPTIONS, 405
    exactly for any other method; none is answered 500. *)
Theorem hello_status_by_method (history : list Request) (req : Request) :
  plain_request req -> path req = "/hello" ->
  exists r,
    wsgi_app call req (serve history app) = (inr r, app) /\
    (status_code r = 200 <->
       method req = "GET" \/ method req = "OPTIONS" \/ method req = "HEAD") /\
    (status_code r = 405 <->
       ~ (method req = "GET" \/ method req = "OPTIONS" \/ method req = "HEAD")) /\
    (status_code r = 200 \/ status_code r = 405).
Proof.
  intros _ Hpath.
  by_table req r; try contradiction; simpl status_code;
    (repeat split; try (intros; discriminate); try tauto; intuition congruence).
Qed.

Lemma hello_status_by_method_witness :
  plain_request Samples.post_hello /\
  exists r,
    wsgi_app call Samples.post_hello (serve [Samples.get_root] app) = (inr r, app) /\
    (status_code r = 200 <->
       method Samples.post_hello = "GET" \/ method Samples.post_hello = "OPTIONS"
       \/ method Samples.post_hello = "HEAD") /\
    (status_code r = 405 <->
       ~ (method Samples.post_hello = "GET" \/ method Samples.post_hello = "OPTIONS"
          \/ method Samples.post_hello = "HEAD")) /\
    (status_code r = 200 \/ status_code r = 405).
Proof.
  assert (plain_request Samples.post_hello) as Hplain
    by (repeat split; reflexivity).
  split; [exact Hplain |].
  apply (hello_status_by_method [Samples.get_root] Samples.post_hello Hplain).
  reflexivity.
Defined.



(** X3: the answer to a request to /hello in the range of
    [plain_request] carries a Content-Length header; unless the request is
    a HEAD request it is the length of the body in decimal, and a HEAD
    request gets an empty body. *)
Theorem hello_content_length (history : list Request) (req : Request) :
  plain_request req -> path req = "/hello" ->
  exists r,
    wsgi_app call req (serve history app) = (inr r, app) /\
    (exists n : nat, headers_get "Content-Length" (headers r) = Some (pretty n)) /\
    (method req <> "HEAD" ->
       headers_get "Content-Length" (headers r)
         = Some (pretty (String.length (data r)))) /\
    (method req = "HEAD" -> data r = EmptyString).
Proof.
  intros _ Hpath.
  by_table req r; try contradiction.
  - split; [exists 42; vm_compute; reflexivity |].
    split; intros; [vm_compute; reflexivity | congruence].
  - split; [exists 42; vm_compute; reflexivity |].
    split; intros; [contradiction | reflexivity].
  - split; [exists 0; vm_compute; reflexivity |].
    split; intros; [vm_compute; reflexivity | congruence].
  - split; [exists 153; vm_compute; reflexivity |].
    split; intros; [vm_compute; reflexivity | exfalso; apply Hm; auto].
Qed.

Lemma hello_content_length_witness :
  plain_request Samples.post_hello /\
  exists r,
    wsgi_app call Samples.post_hello (serve [] app) = (inr r, app) /\
    (exists n : nat, headers_get "Content-Length" (headers r) = Some (pretty n)) /\
    (method Samples.post_hello <> "HEAD" ->
       headers_get "Content-Length" (headers r)
         = Some (pretty (String.length (data r)))) /\
    (method Samples.post_hello = "HEAD" -> data r = EmptyString).
Proof.
  assert (plain_request Samples.post_hello) as Hplain
    by (repeat split; reflexivity).
  split; [exact Hplain |].
  apply (hello_content_length [] Samples.post_hello Hplain). reflexivity.
Defined.

(** X4: the answer to a request to /hello in the range of
    [plain_request] names the allowed methods in an Allow header exactly
    when the method is neither GET nor HEAD (the automatic OPTIONS answer
    and the 405 page); the header then lists GET, HEAD and OPTIONS, each
    once, separated by a comma and a space, in some order. *)
Theorem hello_allow_header (history : list Request) (req : Request) :
  plain_request req -> path req = "/hello" ->
  exists r,
    wsgi_app call req (serve history app) = (inr r, app) /\
    (method req <> "GET" /\ method req <> "HEAD" ->
       exists ms,
         headers_get "Allow" (headers r) = Some (String.concat ", " ms) /\
         ms ≡ₚ ["GET"; "HEAD"; "OPTIONS"]) /\
    (method req = "GET" \/ method req = "HEAD" ->
       headers_get "Allow" (headers r) = None).
Proof.
  intros _ Hpath.
  assert (["OPTIONS"; "GET"; "HEAD"] ≡ₚ ["GET"; "HEAD"; "OPTIONS"]) as Hperm.
  { change ["OPTIONS"; "GET"; "HEAD"] with (["OPTIONS"] ++ ["GET"; "HEAD"])%list.
    rewrite Permutation_app_comm. reflexivity. }
  by_table req r; try contradiction.
  - split; [intros (Hn & _); contradiction | intros _; reflexivity].
  - split; [intros (_ & Hn); contradiction | intros _; reflexivity].
  - split.
    + intros _. exists ["OPTIONS"; "GET"; "HEAD"]. split; [reflexivity | exact Hperm].
    + rewrite Hm. intros [E | E]; discriminate.
  - split.
    + intros _. exists ["OPTIONS"; "GET"; "HEAD"]. split; [reflexivity | exact Hperm].
    + intros [E | E]; exfalso; apply Hm; auto.
Qed.

Lemma hello_allow_header_witness :
  plain_request Samples.post_hello /\
  exists r,
    wsgi_app call Samples.post_hello (serve [] app) = (inr r, app) /\
    (method Samples.post_hello <> "GET" /\ method Samples.post_hello <> "HEAD" ->
       exists ms,
         headers_get "Allow" (headers r) = Some (String.concat ", " ms) /\
         ms ≡ₚ ["GET"; "HEAD"; "OPTIONS"]) /\
    (method Samples.post_hello = "GET" \/ method Samples.post_hello = "HEAD" ->
       headers_get "Allow" (headers r) = None).
Proof.
  assert (plain_request Samples.post_hello) as Hplain
    by (repeat split; reflexivity).
  split; [exact Hplain |].
  apply (hello_allow_header [] Samples.post_hello Hplain). reflexivity.
Defined.

(** X5: a request to /hello in the range of [plain_request] with a method
    other than GET, HEAD and OPTIONS is answered with the framework's page
    for status 405: content type text/html with charset utf-8 and a body
    that begins with the HTML doctype, so it is no JSON text. *)
Theorem hello_405_is_html (history : list Request) (req : Request) :
  plain_request req -> path req = "/hello" ->
  ~ (method req = "GET" \/ method req = "OPTIONS" \/ method req = "HEAD") ->
  exists r,
    wsgi_app call req (serve history app) = (inr r, app) /\
    status_code r = 405 /\
    headers_get "Content-Type" (headers r) = Some "text/html; charset=utf-8" /\
    String.prefix "<!doctype html>" (data r) = true.
Proof.
  intros _ Hpath Hmeth.
  by_table req r; try contradiction;
    try (exfalso; apply Hmeth; rewrite Hm; auto; fail).
  repeat split; vm_compute; reflexivity.
Qed.

Lemma hello_405_is_html_witness :
  plain_request Samples.post_hello /\
  exists r,
    wsgi_app call Samples.post_hello (serve [] app) = (inr r, app) /\
    status_code r = 405 /\
    headers_get "Content-Type" (headers r) = Some "text/html; charset=utf-8" /\
    String.prefix "<!doctype html>" (data r) = true.
Proof.
  assert (plain_request Samples.post_hello) as Hplain
    by (repeat split; reflexivity).
  split; [exact Hplain |].
  apply (hello_405_is_html [] Samples.post_hello Hplain); [reflexivity |].
  intros [E | [E | E]]; discriminate.
Defined.
